(** * Colorama: a shallow embedding of [plugins/colorama.py]

    The plugin is a PyMOL dialog (class [Colorama]) with three sliders that
    hold one color either as RGB integers or as HSV hundredths, and a command
    [color_grad] that colors a selection with a gradient of named colors.

    - Python [float] is IEEE binary64: it is embedded as Rocq's primitive
      [float], whose operations round exactly as CPython's do.
    - Python [int] is [Z].
    - A raised exception is the [Raise] outcome of [result]; a method of the
      dialog is a function of the dialog state and of the host's history in
      the monad [M], which keeps the state reached when an exception leaves.
    - PyMOL's [cmd] is the host: its commands are recorded as [event]s in
      order of issue, its queries are the fields of [Host] and may depend on
      everything issued so far.
    - Of the Qt widgets the embedding keeps what the methods read back: the
      sliders (value, range, float mode, resolution, caption), the two color
      fields, the entry and the label of the active object.  Layout, the
      check marks of the radio buttons and the numeric caption under a slider
      are display only and are left out. *)

From Stdlib Require Import ZArith List String Ascii Bool Lia.
From Stdlib Require Import Floats.
Import ListNotations.
Local Open Scope string_scope.
Local Open Scope list_scope.
Local Open Scope Z_scope.

(** ** Python values and arithmetic *)

Module Py.

Inductive exn : Type :=
| ValueError
| OverflowError
| ZeroDivisionError
| IndexError
| UnboundLocalError.

Inductive result (A : Type) : Type :=
| Ok (a : A)
| Raise (e : exn).
Arguments Ok {A} a.
Arguments Raise {A} e.

Definition rbind {A B : Type} (r : result A) (k : A -> result B) : result B :=
  match r with
  | Ok a => k a
  | Raise e => Raise e
  end.

Definition is_ok {A : Type} (r : result A) : bool :=
  match r with Ok _ => true | Raise _ => false end.

(** [int(x)] of a float: truncation toward zero; [ValueError] on nan,
    [OverflowError] on an infinity. *)
Definition int_of_float (x : float) : result Z :=
  match Prim2SF x with
  | S754_zero _ => Ok 0
  | S754_finite s m e =>
      Ok (cond_Zopp s (if 0 <=? e then Z.shiftl (Zpos m) e
                       else Z.shiftr (Zpos m) (- e)))
  | S754_infinity _ => Raise OverflowError
  | S754_nan => Raise ValueError
  end.

(** The exact integer [z] as a binary64 number, rounded to nearest even. *)
Definition round_int (z : Z) : float :=
  SF2Prim (binary_normalize prec emax z 0 false).

(** Integers of magnitude [2^1024 - 2^970] and above round to an infinity. *)
Definition float_int_bound : Z := 2 ^ 1024 - 2 ^ 970.

(** [float(z)] of an int: [OverflowError] when [z] is too large. *)
Definition float_of_int (z : Z) : result float :=
  if Z.abs z <? float_int_bound then Ok (round_int z) else Raise OverflowError.

(** [a / b] on floats: Python raises on a zero divisor. *)
Definition fdiv (a b : float) : result float :=
  if (b =? 0)%float then Raise ZeroDivisionError else Ok (a / b)%float.

(** [a / b] on ints (true division): the quotient of the exact integers,
    correctly rounded. *)
Definition spec_of_int (z : Z) : spec_float :=
  match z with
  | Z0 => S754_zero false
  | Zpos p => S754_finite false p 0
  | Zneg p => S754_finite true p 0
  end.

Definition int_truediv (a b : Z) : result float :=
  if b =? 0 then Raise ZeroDivisionError
  else match SFdiv prec emax (spec_of_int a) (spec_of_int b) with
       | S754_infinity _ => Raise OverflowError
       | q => Ok (SF2Prim q)
       end.

(** [x % 1.0].  C's [fmod(x, 1.0)] is [x] minus its integral part, which
    binary64 subtraction gives exactly; Python then moves a negative
    remainder up by the divisor and returns [+0.0] for a zero one. *)
Definition trunc_float (x : float) : float :=
  match int_of_float x with
  | Ok z => round_int z
  | Raise _ => x
  end.

Definition fmod1 (x : float) : float :=
  if is_nan x || is_infinity x then nan
  else
    let m := (x - trunc_float x)%float in
    if (m =? 0)%float then zero
    else if (m <? 0)%float then (m + 1)%float else m.

(** A Python number: the sliders hand out ints in RGB mode and floats in
    HSV mode. *)
Inductive num : Type :=
| NInt (z : Z)
| NFloat (f : float).

Definition int_ (n : num) : result Z :=
  match n with
  | NInt z => Ok z
  | NFloat f => int_of_float f
  end.

Definition float_ (n : num) : result float :=
  match n with
  | NInt z => float_of_int z
  | NFloat f => Ok f
  end.

Definition mul (a b : num) : result num :=
  match a, b with
  | NInt x, NInt y => Ok (NInt (x * y))
  | _, _ =>
      rbind (float_ a) (fun x => rbind (float_ b) (fun y => Ok (NFloat (x * y)%float)))
  end.

Definition truediv (a b : num) : result num :=
  match a, b with
  | NInt x, NInt y => rbind (int_truediv x y) (fun q => Ok (NFloat q))
  | _, _ =>
      rbind (float_ a) (fun x => rbind (float_ b) (fun y =>
      rbind (fdiv x y) (fun q => Ok (NFloat q))))
  end.

(** [n < 1], exact also for a float against the int 1. *)
Definition lt_one (n : num) : bool :=
  match n with
  | NInt z => z <? 1
  | NFloat f => (f <? 1)%float
  end.

(** [max(a, b, c)] and [min(a, b, c)]: the first extremal argument. *)
Definition max3 (a b c : float) : float :=
  let m := if (a <? b)%float then b else a in
  if (m <? c)%float then c else m.

Definition min3 (a b c : float) : float :=
  let m := if (b <? a)%float then b else a in
  if (c <? m)%float then c else m.

End Py.

(** ** The standard library's [colorsys] *)

Module Colorsys.
Import Py.

Definition triple : Type := (float * float * float)%type.

Definition rgb_to_hsv (r g b : float) : result triple :=
  let maxc := max3 r g b in
  let minc := min3 r g b in
  let rangec := (maxc - minc)%float in
  let v := maxc in
  if (minc =? maxc)%float then Ok (zero, zero, v)
  else
    rbind (fdiv rangec maxc) (fun s =>
    rbind (fdiv (maxc - r) rangec) (fun rc =>
    rbind (fdiv (maxc - g) rangec) (fun gc =>
    rbind (fdiv (maxc - b) rangec) (fun bc =>
    let h := if (r =? maxc)%float then (bc - gc)%float
             else if (g =? maxc)%float then (2 + rc - bc)%float
             else (4 + gc - rc)%float in
    let h := fmod1 (h / 6)%float in
    Ok (h, s, v))))).

Definition hsv_to_rgb (h s v : float) : result triple :=
  if (s =? 0)%float then Ok (v, v, v)
  else
    rbind (int_of_float (h * 6)%float) (fun i =>
    rbind (float_of_int i) (fun fi =>
    let f := (h * 6 - fi)%float in
    let p := (v * (1 - s))%float in
    let q := (v * (1 - s * f))%float in
    let t := (v * (1 - s * (1 - f)))%float in
    let i := i mod 6 in
    if i =? 0 then Ok (v, t, p)
    else if i =? 1 then Ok (q, v, p)
    else if i =? 2 then Ok (p, v, t)
    else if i =? 3 then Ok (p, q, v)
    else if i =? 4 then Ok (t, p, v)
    else Ok (v, p, q))).

End Colorsys.


(** ** Python strings: [str], [lower], [strip] and the [%] formats in use *)

Module Str.
Import Py.

Definition nl : string := String (ascii_of_nat 10) EmptyString.

Definition digit (d : Z) : ascii :=
  ascii_of_nat (Z.to_nat (if d <? 10 then 48 + d else 87 + d)).

(** The digits of [n >= 0] in base [base], most significant first. *)
Fixpoint digits_from (fuel : nat) (base n : Z) (acc : string) : string :=
  match fuel with
  | O => acc
  | S fuel' =>
      let acc' := String (digit (n mod base)) acc in
      if n / base =? 0 then acc' else digits_from fuel' base (n / base) acc'
  end.

Definition digits_of (base n : Z) : string :=
  digits_from (S (Z.to_nat (Z.log2 n))) base n EmptyString.

(** [str(z)] *)
Definition of_int (z : Z) : string :=
  if z <? 0 then "-" ++ digits_of 10 (- z) else digits_of 10 z.

Fixpoint repeat (c : ascii) (n : nat) : string :=
  match n with
  | O => EmptyString
  | S n' => String c (repeat c n')
  end.

(** Right-justify in a field of [width], padding with [c]. *)
Definition pad_left (c : ascii) (width : nat) (s : string) : string :=
  repeat c (width - String.length s) ++ s.

(** ['%02x' % z]: the sign comes before the zero padding. *)
Definition hex02 (z : Z) : string :=
  if z <? 0 then "-" ++ pad_left "0" 1 (digits_of 16 (- z))
  else pad_left "0" 2 (digits_of 16 z).

Definition lower_ascii (c : ascii) : ascii :=
  let n := nat_of_ascii c in
  if (65 <=? n)%nat && (n <=? 90)%nat then ascii_of_nat (n + 32) else c.

(** [s.lower()] on ASCII text. *)
Fixpoint lower (s : string) : string :=
  match s with
  | EmptyString => EmptyString
  | String c s' => String (lower_ascii c) (lower s')
  end.



Fixpoint rev_onto (s acc : string) : string :=
  match s with
  | EmptyString => acc
  | String c s' => rev_onto s' (String c acc)
  end.

Definition rev (s : string) : string := rev_onto s EmptyString.


(** Membership of a string in a tuple of strings: [s in (...)]. *)
Fixpoint mem (s : string) (l : list string) : bool :=
  match l with
  | [] => false
  | x :: l' => String.eqb s x || mem s l'
  end.

(** *** ['%4.4g' % x]

    Four significant digits of the exact value, ties to even; fixed
    notation when the decimal exponent is in [-4, 4), scientific notation
    otherwise; trailing zeros dropped; right-justified in four columns. *)

(** The number of decimal digits of [n >= 1]. *)
Definition ndigits10 (n : Z) : Z := Z.of_nat (String.length (digits_of 10 n)).

(** The largest [x] with [10^x <= num/den], for positive [num] and [den]. *)
Definition floor_log10 (num den : Z) : Z :=
  if den <=? num then ndigits10 (num / den) - 1
  else - ndigits10 ((den + num - 1) / num - 1).

(** [num/den] rounded to an integer, ties to even. *)
Definition round_half_even (num den : Z) : Z :=
  let q := num / den in
  let r := num mod den in
  match 2 * r ?= den with
  | Lt => q
  | Gt => q + 1
  | Eq => if Z.even q then q else q + 1
  end.

(** The four significant digits [d] and decimal exponent [x] of [num/den]:
    [num/den] is about [d * 10^(x-3)] with [1000 <= d <= 9999]. *)
Definition sig4 (num den : Z) : Z * Z :=
  let x := floor_log10 num den in
  let d := if x <=? 3 then round_half_even (num * 10 ^ (3 - x)) den
           else round_half_even num (den * 10 ^ (x - 3)) in
  if d =? 10000 then (1000, x + 1) else (d, x).

Fixpoint rstrip_zeros_rev (s : string) : string :=
  match s with
  | String "0" s' => rstrip_zeros_rev s'
  | _ => s
  end.

Definition rstrip_zeros (s : string) : string := rev (rstrip_zeros_rev (rev s)).

Definition with_fraction (ip fp : string) : string :=
  match rstrip_zeros fp with
  | EmptyString => ip
  | fp' => ip ++ "." ++ fp'
  end.

Definition g4_magnitude (num den : Z) : string :=
  let '(d, x) := sig4 num den in
  let ds := digits_of 10 d in
  if (-4 <=? x) && (x <? 4) then
    if 0 <=? x then
      with_fraction (substring 0 (Z.to_nat (x + 1)) ds)
                    (substring (Z.to_nat (x + 1)) (Z.to_nat (3 - x)) ds)
    else with_fraction "0" (repeat "0" (Z.to_nat (- x - 1)) ++ ds)
  else
    with_fraction (substring 0 1 ds) (substring 1 3 ds)
    ++ "e" ++ (if x <? 0 then "-" else "+")
    ++ pad_left "0" 2 (digits_of 10 (Z.abs x)).

Definition g4 (x : float) : string :=
  match Prim2SF x with
  | S754_nan => "nan"
  | S754_infinity s => if s then "-inf" else "inf"
  | S754_zero s => if s then "-0" else "0"
  | S754_finite s m e =>
      (if s then "-" else "")
      ++ (if 0 <=? e then g4_magnitude (Z.shiftl (Zpos m) e) 1
          else g4_magnitude (Zpos m) (Z.shiftl 1 (- e)))
  end.

Definition fmt_4_4g (x : float) : string := pad_left " " 4 (g4 x).

End Str.

(** ** State and exceptions *)

Module Monad.
Import Py.

(** A computation on a state [S] that returns an [A] or raises; the state
    it reached is kept either way. *)
Definition M (S A : Type) : Type := S -> S * result A.

Definition ret {S A : Type} (a : A) : M S A := fun s => (s, Ok a).

Definition raise {S A : Type} (e : exn) : M S A := fun s => (s, Raise e).

Definition bind {S A B : Type} (c : M S A) (k : A -> M S B) : M S B :=
  fun s =>
    match c s with
    | (s', Ok a) => k a s'
    | (s', Raise e) => (s', Raise e)
    end.

Definition lift {S A : Type} (r : result A) : M S A := fun s => (s, r).

Definition get {S : Type} : M S S := fun s => (s, Ok s).

Definition modify {S : Type} (f : S -> S) : M S unit := fun s => (f s, Ok tt).

(** [for x in l: body(x)] *)
Fixpoint for_each {S A : Type} (l : list A) (body : A -> M S unit) : M S unit :=
  match l with
  | [] => ret tt
  | x :: l' => bind (body x) (fun _ => for_each l' body)
  end.

(** A loop that threads its local variables [acc] through the body. *)
Fixpoint fold_each {S A B : Type} (l : list A) (body : B -> A -> M S B) (acc : B)
  : M S B :=
  match l with
  | [] => ret acc
  | x :: l' => bind (body acc x) (fun acc' => fold_each l' body acc')
  end.

(** [range(lo, hi)] *)
Definition range (lo hi : Z) : list Z :=
  map (fun k => lo + Z.of_nat k) (seq 0 (Z.to_nat (hi - lo))).

(** [l[j]] for [j >= 0] *)
Definition index {S A : Type} (l : list A) (j : Z) : M S A :=
  match nth_error l (Z.to_nat j) with
  | Some a => ret a
  | None => raise IndexError
  end.

End Monad.

Declare Scope monad_scope.
Notation "x <- c ;; k" := (Monad.bind c (fun x => k))
  (at level 61, c at next level, right associativity) : monad_scope.
Notation "c ;;; k" := (Monad.bind c (fun _ => k))
  (at level 61, right associativity) : monad_scope.
Local Open Scope monad_scope.

(** ** The host: PyMOL's [cmd] *)

Module Host.
Import Py.

(** The value of an atom's [b]: a number, or the residue identifier that
    [color_grad] stores there. *)
Inductive attr : Type :=
| ANum (f : float)
| AStr (s : string).

Record atom : Type := { resi : string; b : attr; q : float }.

(** What the plugin issues, in order: lines printed, and commands of [cmd]
    that change the host. *)
Inductive event : Type :=
| Print (line : string)
| Delete (name : string)
| SetColor (name : string) (rgb : Colorsys.triple)
| Color (name : string) (sel : string)
| LoadModel (atoms : list atom) (name : string).

(** The host's answers, each a function of what was issued before.
    [iterate sel expr] gives the integers that evaluating [expr] on the
    atoms of [sel] appended to the list in [stored], and whether it raised
    on the way; a query that raises answers [None]. *)
Record t : Type := {
  iterate : list event -> string -> string -> list Z * bool;
  get_object_color_index : list event -> string -> option Z;
  get_color_tuple : list event -> Z -> option Colorsys.triple;
  get_model : list event -> string -> list atom
}.

Definition trace : Type := list event.

Definition emit (e : event) : Monad.M trace unit :=
  Monad.modify (fun tr => tr ++ [e]).

(** [print(a, b, ...)]: the arguments separated by single spaces. *)
Definition print (args : list string) : Monad.M trace unit :=
  emit (Print (String.concat " " args)).

Definition is_color (e : event) : bool :=
  match e with Color _ _ => true | _ => false end.

(** The [cmd.color] calls of a trace, in order. *)
Definition colorings (tr : trace) : list event := filter is_color tr.

End Host.

(** ** The gradient command: [make_gradient] and [color_grad] *)

Module Gradient.
Import Py Monad Host.

(** One channel of the color of bin [j]:
    [cs - (cs - ce) * float(j) / (nbins - 1)]. *)
Definition channel (cs ce : float) (j nbins : Z) : result float :=
  rbind (float_of_int j) (fun fj =>
  rbind (float_of_int (nbins - 1)) (fun fn =>
  rbind (fdiv ((cs - ce) * fj) fn) (fun d =>
  Ok (cs - d)%float))).

(** The body of the loop of [make_gradient]; [col] and [coldesc] are its
    two lists. *)
Definition gradient_step (nbins : Z) (hs he ss se vs ve : float) (colorname : string)
    (acc : list Colorsys.triple * list string) (j : Z)
  : M trace (list Colorsys.triple * list string) :=
  let '(col, coldesc) := acc in
  let coldesc := coldesc ++ [(colorname ++ Str.of_int j)%string] in
  h <- lift (channel hs he j nbins) ;;
  s <- lift (channel ss se j nbins) ;;
  v <- lift (channel vs ve j nbins) ;;
  rgb <- lift (Colorsys.hsv_to_rgb h s v) ;;
  let col := col ++ [rgb] in
  c <- index col j ;;
  emit (SetColor (colorname ++ Str.of_int j)%string c) ;;;
  ret (col, coldesc).

(** [make_gradient]: the names of the colors it defined.  Only the
    gradients ['bgr'] and ['rainbow'] bind [coldesc]; for any other the
    final [return coldesc] reads an unbound local. *)
Definition make_gradient (sel : list string) (gradient : string) (nbins : Z)
    (sat value hs he ss se vs ve : float) (colorname : string)
  : M trace (list string) :=
  if String.eqb gradient "bgr" || String.eqb gradient "rainbow" then
    acc <- fold_each (range 0 nbins)
             (gradient_step nbins hs he ss se vs ve colorname) ([], []) ;;
    ret (snd acc)
  else raise UnboundLocalError.

(** The arguments of [color_grad], as Python numbers and strings: the
    conversions [int(...)] and [float(...)] that open the function are the
    identity on them, and [minimum != ''], [maximum != ''] hold. *)
Record args : Type := {
  selection : string;
  item : string;
  mode : string;
  gradient : string;
  nbins : Z;
  sat : float;
  value : float;
  minimum : Z;
  maximum : Z;
  dummy : string;
  hs : float; he : float;
  ss : float; se : float;
  vs : float; ve : float;
  colorname : string
}.

(** The defaults of the signature. *)
Definition defaults : args := {|
  selection := ""; item := "b"; mode := "hist"; gradient := "bgr";
  nbins := 11; sat := 1; value := 1; minimum := 1; maximum := 1;
  dummy := "dummy_all"; hs := 1; he := 1; ss := 1; se := 1; vs := 1; ve := 1;
  colorname := "init" |}.

Definition known_modes : list string := ["hist"; "ramp"].

Definition known_gradients : list string :=
  ["bgr"; "rgb"; "rainbow"; "reverserainbow"; "bwr"; "rwb";
   "bmr"; "rmb"; "rw"; "wr"; "gw"; "wg"; "bw"; "wb"; "gy"; "yg";
   "gray"; "grey"; "reversegray"; "reversegrey"].

(** The bin count in effect: line 596 replaces the argument by
    [maximum - minimum + 2], and the sanity check turns a 1 into 11. *)
Definition derived_nbins (a : args) : Z := maximum a - minimum a + 2.

Definition effective_nbins (a : args) : Z :=
  if derived_nbins a =? 1 then 11 else derived_nbins a.

Definition clamp01 (x : float) : float :=
  let x := if (1 <? x)%float then 1%float else x in
  if (x <? 0)%float then 0%float else x.

(** The attribute value that the predicate of bin [j] tests:
    [min_b + bin_width] for bin 0 and [min_b + j * bin_width] after it. *)
Definition threshold0 (min_b : Z) (bin_width : float) : result float :=
  rbind (float_of_int min_b) (fun fm => Ok (fm + bin_width)%float).

Definition threshold (min_b : Z) (bin_width : float) (j : Z) : result float :=
  rbind (float_of_int j) (fun fj =>
  rbind (float_of_int min_b) (fun fm => Ok (fm + fj * bin_width)%float)).

(** [[f(x) for x in l]] for an [f] that may raise. *)
Fixpoint map_result {A B : Type} (f : A -> result B) (l : list A) : result (list B) :=
  match l with
  | [] => Ok []
  | x :: l' => rbind (f x) (fun y => rbind (map_result f l') (fun ys => Ok (y :: ys)))
  end.

(** The attribute values of histogram mode: that of bin 0, and those of
    the bins [1 .. nbins - 1] in order. *)
Definition hist_thresholds (min_b : Z) (bin_width : float) (nbins : Z)
  : result (float * list float) :=
  rbind (threshold0 min_b bin_width) (fun t0 =>
  rbind (map_result (threshold min_b bin_width) (range 1 nbins)) (fun ts =>
  Ok (t0, ts))).

(** The predicate of bin 0, on the selection, and of a later bin, on the
    copy [dummy]. *)
Definition sel_first (selection item : string) (t : float) : string :=
  (selection ++ " and (" ++ item ++ " = " ++ Str.fmt_4_4g t ++ ")")%string.

Definition sel_later (dummy item : string) (t : float) : string :=
  (dummy ++ " and " ++ item ++ " = " ++ Str.fmt_4_4g t)%string.

Definition hist_bin_width (minimum maximum nbins : Z) : result float :=
  let min_b := minimum - 1 in
  let max_b := maximum + 1 in
  int_truediv (max_b - min_b) nbins.

(** The selections of histogram mode (the block under [mode == 'hist']). *)
Definition hist_sel (selection dummy item : string) (minimum maximum nbins : Z)
  : result (list string) :=
  rbind (hist_bin_width minimum maximum nbins) (fun bin_width =>
  rbind (hist_thresholds (minimum - 1) bin_width nbins) (fun ts =>
  Ok (sel_first selection item (fst ts) :: map (sel_later dummy item) (snd ts)))).

(** The final loop: [cmd.color(colours[j], sel[j])] for each bin. *)
Definition color_bin (sel colours : list string) (j : Z) : M trace unit :=
  s <- index sel j ;;
  print ["Color select: "; s] ;;;
  c <- index colours j ;;
  s <- index sel j ;;
  emit (Color c s).

Definition set_b_to_resi (a : atom) : atom :=
  {| resi := resi a; b := AStr (resi a); q := q a |}.

(** The lines the command prints. *)
Definition warn_nbins : string :=
  (Str.nl ++ "     WARNING: You specified nbins=1, which does not make sense...resetting nbins=11" ++ Str.nl)%string.

Definition warn_mode (mode : string) : list string :=
  [(Str.nl ++ "     WARNING: Unknown mode ")%string; mode;
   ("    ----->   Nothing done." ++ Str.nl)%string].

Definition usage : string :=
  (Str.nl ++ " USAGE: color_grad dimB, minimum=380, maximum=531, hs=0.3, he=0.25,ss=0.7,se=0.2,vs=1,ve=0.5" ++ Str.nl)%string.

Definition warn_gradient (gradient : string) : list string :=
  [(Str.nl ++ "     WARNING: Unknown gradient: ")%string; gradient;
   ("    ----->   Nothing done." ++ Str.nl)%string].

Definition report (mode gradient : string) (nbins : Z) : list string :=
  ["MODE, GRADIENT, NBINS:"; mode; gradient; Str.of_int nbins].

(** Lines 649 to 675, once the atoms [m] carry the item: load the copy,
    build the selections, define the colors and apply them. *)
Definition paint (a : args) (mode gradient : string) (nbins : Z)
    (sat value : float) (m : list atom) : M trace unit :=
  let colorname := ("color_" ++ selection a)%string in
  let dummy := ("dummy-" ++ selection a)%string in
  emit (LoadModel m dummy) ;;;
  print [selection a] ;;;
  print ["Minimum and Maximum B-values: ";
         Str.of_int (minimum a); Str.of_int (maximum a)] ;;;
  sel <- (if String.eqb mode "hist" then
            lift (hist_sel (selection a) dummy (item a)
                           (minimum a) (maximum a) nbins)
          else ret []) ;;
  colours <- make_gradient sel gradient nbins sat value
               (hs a) (he a) (ss a) (se a) (vs a) (ve a) colorname ;;
  for_each (range 0 nbins) (color_bin sel colours).

Definition color_grad (host : Host.t) (a : args) : M trace unit :=
  let nbins := nbins a in
  let nbins := maximum a - minimum a + 2 in
  let sat := clamp01 (sat a) in
  let value := clamp01 (value a) in
  let gradient := Str.lower (gradient a) in
  let mode := Str.lower (mode a) in
  nbins <- (if nbins =? 1 then print [warn_nbins] ;;; ret 11 else ret nbins) ;;
  if negb (Str.mem mode known_modes) then print (warn_mode mode)
  else if String.eqb (selection a) "" then print [usage]
  else if negb (Str.mem gradient known_gradients) then print (warn_gradient gradient)
  else
    print (report mode gradient nbins) ;;;
    tr <- get ;;
    let m := get_model host tr (selection a) in
    if (List.length m =? 0)%nat then print ["Sorry, no atoms selected"]
    else if String.eqb (item a) "b" then
      paint a mode gradient nbins sat value (map set_b_to_resi m)
    else if String.eqb (item a) "q" then
      paint a mode gradient nbins sat value m
    else print [("Not configured to work on item " ++ item a)%string].

End Gradient.

(** ** The dialog: [LabeledSlider] and [Colorama] *)

Module Dialog.
Import Py Monad Host.

(** Qt's [QSlider]: an integer value kept within [[sl_min, sl_max]]. *)
Record qslider : Type := { sl_value : Z; sl_min : Z; sl_max : Z }.

(** [LabeledSlider] *)
Record labeled_slider : Type := {
  slider : qslider;
  label : string;
  is_float_mode : bool;
  resolution : num
}.

(** [LabeledSlider(label_text, min_val, max_val)] *)
Definition new_slider (label_text : string) (min_val max_val : Z) : labeled_slider :=
  {| slider := {| sl_value := 0; sl_min := min_val; sl_max := max_val |};
     label := label_text; is_float_mode := false; resolution := NInt 1 |}.

Inductive monograd_t : Type := mono | grad.
Inductive colorsystem_t : Type := rgb | hsv.
Inductive farbe12_t : Type := on_farbe1 | on_farbe2.
Inductive which : Type := Red | Green | Blue.

Definition rgb_int : Type := (Z * Z * Z)%type.

(** The attributes of a [Colorama] instance. *)
Record dialog : Type := {
  selection : string;
  monograd : monograd_t;
  colorsystem : colorsystem_t;
  farbe12 : farbe12_t;
  farbe1 : rgb_int;
  farbe2 : rgb_int;
  selection_entry : string;
  active_label : string;
  colorfield1 : string;
  colorfield2 : string;
  scale_red : labeled_slider;
  scale_green : labeled_slider;
  scale_blue : labeled_slider
}.

(** [Colorama()] *)
Definition init : dialog := {|
  selection := ""; monograd := mono; colorsystem := rgb; farbe12 := on_farbe1;
  farbe1 := (128, 128, 128); farbe2 := (128, 128, 128);
  selection_entry := ""; active_label := "None";
  colorfield1 := "#808080"; colorfield2 := "#808080";
  scale_red := new_slider "R" 0 255;
  scale_green := new_slider "G" 0 255;
  scale_blue := new_slider "B" 0 255 |}.

(** The dialog, what was issued to the host, and the two lists the plugin
    keeps in PyMOL's [stored]. *)
Record state : Type := {
  dlg : dialog;
  tr : trace;
  colorlist : list Z;
  residuelist : list Z
}.

Definition set_dlg (f : dialog -> dialog) : M state unit :=
  modify (fun st => {| dlg := f (dlg st); tr := tr st;
                       colorlist := colorlist st; residuelist := residuelist st |}).


Definition set_residuelist (l : list Z) : M state unit :=
  modify (fun st => {| dlg := dlg st; tr := tr st;
                       colorlist := colorlist st; residuelist := l |}).

(** Run a computation of the host trace inside the dialog's state. *)
Definition host_do {A : Type} (c : M trace A) : M state A :=
  fun st =>
    let '(tr', r) := c (tr st) in
    ({| dlg := dlg st; tr := tr'; colorlist := colorlist st;
        residuelist := residuelist st |}, r).

Definition get_scale (w : which) (d : dialog) : labeled_slider :=
  match w with
  | Red => scale_red d
  | Green => scale_green d
  | Blue => scale_blue d
  end.

Definition put_scale (w : which) (s : labeled_slider) (d : dialog) : dialog :=
  {| selection := selection d; monograd := monograd d;
     colorsystem := colorsystem d; farbe12 := farbe12 d;
     farbe1 := farbe1 d; farbe2 := farbe2 d;
     selection_entry := selection_entry d; active_label := active_label d;
     colorfield1 := colorfield1 d; colorfield2 := colorfield2 d;
     scale_red := match w with Red => s | _ => scale_red d end;
     scale_green := match w with Green => s | _ => scale_green d end;
     scale_blue := match w with Blue => s | _ => scale_blue d end |}.

Definition scale (w : which) : M state labeled_slider :=
  st <- get ;; ret (get_scale w (dlg st)).

Definition update_scale (w : which) (f : labeled_slider -> labeled_slider) : M state unit :=
  set_dlg (fun d => put_scale w (f (get_scale w d)) d).

Definition with_slider (q : qslider) (s : labeled_slider) : labeled_slider :=
  {| slider := q; label := label s; is_float_mode := is_float_mode s;
     resolution := resolution s |}.

(** [LabeledSlider.get_value] *)
Definition get_value (w : which) : M state num :=
  s <- scale w ;;
  if is_float_mode s then lift (mul (NInt (sl_value (slider s))) (resolution s))
  else ret (NInt (sl_value (slider s))).

(** [Colorama.RGBToHTMLColor] *)
Definition RGBToHTMLColor (c : rgb_int) : string :=
  let '(r, g, b) := c in
  ("#" ++ Str.hex02 r ++ Str.hex02 g ++ Str.hex02 b)%string.

Definition set_colorfield1 (hex : string) : M state unit :=
  set_dlg (fun d =>
    {| selection := selection d; monograd := monograd d;
       colorsystem := colorsystem d; farbe12 := farbe12 d;
       farbe1 := farbe1 d; farbe2 := farbe2 d;
       selection_entry := selection_entry d; active_label := active_label d;
       colorfield1 := hex; colorfield2 := colorfield2 d;
       scale_red := scale_red d; scale_green := scale_green d;
       scale_blue := scale_blue d |}).

Definition set_colorfield2 (hex : string) : M state unit :=
  set_dlg (fun d =>
    {| selection := selection d; monograd := monograd d;
       colorsystem := colorsystem d; farbe12 := farbe12 d;
       farbe1 := farbe1 d; farbe2 := farbe2 d;
       selection_entry := selection_entry d; active_label := active_label d;
       colorfield1 := colorfield1 d; colorfield2 := hex;
       scale_red := scale_red d; scale_green := scale_green d;
       scale_blue := scale_blue d |}).

Definition set_farbe1 (c : rgb_int) : M state unit :=
  set_dlg (fun d =>
    {| selection := selection d; monograd := monograd d;
       colorsystem := colorsystem d; farbe12 := farbe12 d;
       farbe1 := c; farbe2 := farbe2 d;
       selection_entry := selection_entry d; active_label := active_label d;
       colorfield1 := colorfield1 d; colorfield2 := colorfield2 d;
       scale_red := scale_red d; scale_green := scale_green d;
       scale_blue := scale_blue d |}).

Definition set_farbe2 (c : rgb_int) : M state unit :=
  set_dlg (fun d =>
    {| selection := selection d; monograd := monograd d;
       colorsystem := colorsystem d; farbe12 := farbe12 d;
       farbe1 := farbe1 d; farbe2 := c;
       selection_entry := selection_entry d; active_label := active_label d;
       colorfield1 := colorfield1 d; colorfield2 := colorfield2 d;
       scale_red := scale_red d; scale_green := scale_green d;
       scale_blue := scale_blue d |}).


Definition set_colorsystem (c : colorsystem_t) : M state unit :=
  set_dlg (fun d =>
    {| selection := selection d; monograd := monograd d;
       colorsystem := c; farbe12 := farbe12 d;
       farbe1 := farbe1 d; farbe2 := farbe2 d;
       selection_entry := selection_entry d; active_label := active_label d;
       colorfield1 := colorfield1 d; colorfield2 := colorfield2 d;
       scale_red := scale_red d; scale_green := scale_green d;
       scale_blue := scale_blue d |}).

Definition set_farbe12 (f : farbe12_t) : M state unit :=
  set_dlg (fun d =>
    {| selection := selection d; monograd := monograd d;
       colorsystem := colorsystem d; farbe12 := f;
       farbe1 := farbe1 d; farbe2 := farbe2 d;
       selection_entry := selection_entry d; active_label := active_label d;
       colorfield1 := colorfield1 d; colorfield2 := colorfield2 d;
       scale_red := scale_red d; scale_green := scale_green d;
       scale_blue := scale_blue d |}).



(** [z / 255.0] for an int [z]. *)
Definition div255 (z : Z) : result float :=
  rbind (float_of_int z) (fun x => Ok (x / 255)%float).

Definition read_int (w : which) : M state Z :=
  v <- get_value w ;; lift (int_ v).

Definition read_float (w : which) : M state float :=
  v <- get_value w ;; lift (float_ v).

(** The color of the sliders as integers: [int(get_value())] of each in
    RGB; in HSV [int(255 * c)] of each channel [c] of the converted value,
    which [cmd.set_color] receives as it is. *)
Definition slider_color_rgb : M state rgb_int :=
  r <- read_int Red ;;
  g <- read_int Green ;;
  b <- read_int Blue ;;
  ret (r, g, b).

Definition slider_color_hsv : M state (rgb_int * Colorsys.triple) :=
  h <- read_float Red ;;
  s <- read_float Green ;;
  v <- read_float Blue ;;
  c <- lift (Colorsys.hsv_to_rgb h s v) ;;
  let '(cr, cg, cb) := c in
  r <- lift (int_of_float (255 * cr)) ;;
  g <- lift (int_of_float (255 * cg)) ;;
  b <- lift (int_of_float (255 * cb)) ;;
  ret ((r, g, b), c).

(** [Colorama.setzeFarbe], the slot of the three sliders. *)
Definition setzeFarbe : M state unit :=
  st <- get ;;
  let d := dlg st in
  if String.eqb (selection d) "" then ret tt
  else
    let name := (selection d ++ "_color")%string in
    match monograd d, colorsystem d with
    | mono, rgb =>
        c <- slider_color_rgb ;;
        let '(r, g, b) := c in
        let hexcolor := RGBToHTMLColor c in
        set_colorfield1 hexcolor ;;;
        set_colorfield2 hexcolor ;;;
        host_do (emit (Delete name)) ;;;
        fr <- lift (div255 r) ;;
        fg <- lift (div255 g) ;;
        fb <- lift (div255 b) ;;
        host_do (emit (SetColor name (fr, fg, fb))) ;;;
        host_do (emit (Color name (selection d)))
    | mono, hsv =>
        c <- slider_color_hsv ;;
        let hexcolor := RGBToHTMLColor (fst c) in
        set_colorfield1 hexcolor ;;;
        set_colorfield2 hexcolor ;;;
        host_do (emit (Delete name)) ;;;
        host_do (emit (SetColor name (snd c))) ;;;
        host_do (emit (Color name (selection d)))
    | grad, cs =>
        c <- (match cs with
              | rgb => slider_color_rgb
              | hsv => c <- slider_color_hsv ;; ret (fst c)
              end) ;;
        let hexcolor := RGBToHTMLColor c in
        match farbe12 d with
        | on_farbe1 => set_colorfield1 hexcolor ;;; set_farbe1 c
        | on_farbe2 => set_colorfield2 hexcolor ;;; set_farbe2 c
        end
    end.

(** *** The slider's setters, as Qt's [QAbstractSlider] defines them

    A Python int handed to Qt must fit a C [int].  [setValue] bounds the
    value by the range and emits [valueChanged] only when the value
    changes; the signal reaches [setzeFarbe].  [setRange] bounds the value
    again when the range changes. *)
Definition c_int (z : Z) : M state Z :=
  if (- 2 ^ 31 <=? z) && (z <? 2 ^ 31) then ret z else raise OverflowError.

Definition bound (q : qslider) (v : Z) : Z := Z.max (sl_min q) (Z.min (sl_max q) v).

Definition bounded_setValue (w : which) (v : Z) : M state unit :=
  s <- scale w ;;
  let q := slider s in
  let v' := bound q v in
  if v' =? sl_value q then ret tt
  else
    update_scale w (with_slider {| sl_value := v'; sl_min := sl_min q; sl_max := sl_max q |}) ;;;
    setzeFarbe.

Definition setValue (w : which) (v : Z) : M state unit :=
  v <- c_int v ;; bounded_setValue w v.

Definition setRange (w : which) (lo hi : Z) : M state unit :=
  s <- scale w ;;
  let q := slider s in
  let hi := Z.max lo hi in
  if (lo =? sl_min q) && (hi =? sl_max q) then ret tt
  else
    update_scale w (with_slider {| sl_value := sl_value q; sl_min := lo; sl_max := hi |}) ;;;
    bounded_setValue w (sl_value q).

Definition setMinimum (w : which) (lo : Z) : M state unit :=
  lo <- c_int lo ;;
  s <- scale w ;;
  setRange w lo (Z.max (sl_max (slider s)) lo).

Definition setMaximum (w : which) (hi : Z) : M state unit :=
  hi <- c_int hi ;;
  s <- scale w ;;
  setRange w (Z.min (sl_min (slider s)) hi) hi.

(** [LabeledSlider.set_label] *)
Definition set_label (w : which) (text : string) : M state unit :=
  update_scale w (fun s =>
    {| slider := slider s; label := text; is_float_mode := is_float_mode s;
       resolution := resolution s |}).

Definition set_mode (w : which) (fm : bool) (res : num) : M state unit :=
  update_scale w (fun s =>
    {| slider := slider s; label := label s; is_float_mode := fm;
       resolution := res |}).

(** [LabeledSlider.set_range] *)
Definition set_range (w : which) (min_val max_val res : num) : M state unit :=
  if lt_one res then
    set_mode w true res ;;;
    lo <- lift (rbind (truediv min_val res) int_) ;;
    setMinimum w lo ;;;
    hi <- lift (rbind (truediv max_val res) int_) ;;
    setMaximum w hi
  else
    set_mode w false res ;;;
    lo <- lift (int_ min_val) ;;
    setMinimum w lo ;;;
    hi <- lift (int_ max_val) ;;
    setMaximum w hi.

(** [LabeledSlider.set_value] *)
Definition set_value (w : which) (v : num) : M state unit :=
  s <- scale w ;;
  if is_float_mode s then
    z <- lift (rbind (truediv v (resolution s)) int_) ;;
    setValue w z
  else
    z <- lift (int_ v) ;;
    setValue w z.

(** The literal [0.01], that is the binary64 number nearest to it. *)
Definition hundredth : float := 0x1.47ae147ae147bp-7%float.

(** [Colorama.Scalergb].  With the color system ['hsv'] the sliders are in
    float mode and [get_value] hands out floats; an int it handed out
    would enter [hsv_to_rgb]'s arithmetic as the same float. *)
Definition Scalergb : M state unit :=
  st <- get ;;
  match colorsystem (dlg st) with
  | rgb => ret tt
  | hsv =>
      h <- read_float Red ;;
      s <- read_float Green ;;
      v <- read_float Blue ;;
      c <- lift (Colorsys.hsv_to_rgb h s v) ;;
      let '(cr, cg, cb) := c in
      let r := (255 * cr)%float in
      let g := (255 * cg)%float in
      let b := (255 * cb)%float in
      set_label Red "R" ;;;
      set_label Green "G" ;;;
      set_label Blue "B" ;;;
      set_range Red (NInt 0) (NInt 255) (NInt 1) ;;;
      set_range Green (NInt 0) (NInt 255) (NInt 1) ;;;
      set_range Blue (NInt 0) (NInt 255) (NInt 1) ;;;
      set_value Red (NFloat r) ;;;
      set_value Green (NFloat g) ;;;
      set_value Blue (NFloat b) ;;;
      set_colorsystem rgb
  end.

(** [Colorama.Scalehsv] *)
Definition Scalehsv : M state unit :=
  st <- get ;;
  match colorsystem (dlg st) with
  | hsv => ret tt
  | rgb =>
      r <- read_float Red ;;
      g <- read_float Green ;;
      b <- read_float Blue ;;
      c <- lift (Colorsys.rgb_to_hsv (r / 255) (g / 255) (b / 255)) ;;
      let '(h, s, v) := c in
      set_label Red "H" ;;;
      set_label Green "S" ;;;
      set_label Blue "V" ;;;
      set_range Red (NInt 0) (NInt 1) (NFloat hundredth) ;;;
      set_range Green (NInt 0) (NInt 1) (NFloat hundredth) ;;;
      set_range Blue (NInt 0) (NInt 1) (NFloat hundredth) ;;;
      set_value Red (NFloat h) ;;;
      set_value Green (NFloat s) ;;;
      set_value Blue (NFloat v) ;;;
      set_colorsystem hsv
  end.


(** The body shared by [Farbe1] and [Farbe2]: show the color [pick] of the
    dialog on the sliders; the tuple is read again for each slider. *)
Definition show_farbe (pick : dialog -> rgb_int) : M state unit :=
  st <- get ;;
  match monograd (dlg st), colorsystem (dlg st) with
  | mono, _ => ret tt
  | grad, rgb =>
      st <- get ;;
      set_value Red (NInt (fst (fst (pick (dlg st))))) ;;;
      st <- get ;;
      set_value Green (NInt (snd (fst (pick (dlg st))))) ;;;
      st <- get ;;
      set_value Blue (NInt (snd (pick (dlg st))))
  | grad, hsv =>
      let '(r, g, b) := pick (dlg st) in
      fr <- lift (div255 r) ;;
      fg <- lift (div255 g) ;;
      fb <- lift (div255 b) ;;
      c <- lift (Colorsys.rgb_to_hsv fr fg fb) ;;
      let '(h, s, v) := c in
      set_value Red (NFloat h) ;;;
      set_value Green (NFloat s) ;;;
      set_value Blue (NFloat v)
  end.

Definition Farbe2 : M state unit := set_farbe12 on_farbe2 ;;; show_farbe farbe2.



(** [a == b] on tuples of three floats. *)
Definition triple_eqb (a b : Colorsys.triple) : bool :=
  let '(a0, a1, a2) := a in
  let '(b0, b1, b2) := b in
  (a0 =? b0)%float && (a1 =? b1)%float && (a2 =? b2)%float.





(** [min(l)] and [max(l)] of a list whose first element is [x]. *)
Definition list_min (x : Z) (l : list Z) : Z :=
  fold_left (fun m y => if y <? m then y else m) l x.

Definition list_max (x : Z) (l : list Z) : Z :=
  fold_left (fun m y => if m <? y then y else m) l x.

(** [Colorama.setgradient] *)
Definition setgradient (host : Host.t) : M state unit :=
  st <- get ;;
  let d := dlg st in
  if String.eqb (selection d) "" then ret tt
  else
    let '(found, raised) :=
      iterate host (tr st) (selection d) "stored.residuelist.append(int(resi))" in
    set_residuelist found ;;;
    if raised then host_do (print ["Error: Could not iterate over selection"])
    else
      match found with
      | [] => host_do (print ["Error: No residues found in selection"])
      | x :: rest =>
          let firstresidue := list_min x rest in
          let lastresidue := list_max x rest in
          let '(r1, g1, b1) := farbe1 d in
          let '(r2, g2, b2) := farbe2 d in
          rs <- lift (div255 r1) ;;
          gs <- lift (div255 g1) ;;
          bs <- lift (div255 b1) ;;
          re <- lift (div255 r2) ;;
          ge <- lift (div255 g2) ;;
          be <- lift (div255 b2) ;;
          hsvcolorstart <- lift (Colorsys.rgb_to_hsv rs gs bs) ;;
          hsvcolorend <- lift (Colorsys.rgb_to_hsv re ge be) ;;
          let '(hs, ss, vs) := hsvcolorstart in
          let '(he, se, ve) := hsvcolorend in
          host_do (Gradient.color_grad host
            {| Gradient.selection := selection d;
               Gradient.item := Gradient.item Gradient.defaults;
               Gradient.mode := Gradient.mode Gradient.defaults;
               Gradient.gradient := Gradient.gradient Gradient.defaults;
               Gradient.nbins := Gradient.nbins Gradient.defaults;
               Gradient.sat := Gradient.sat Gradient.defaults;
               Gradient.value := Gradient.value Gradient.defaults;
               Gradient.minimum := firstresidue;
               Gradient.maximum := lastresidue;
               Gradient.dummy := Gradient.dummy Gradient.defaults;
               Gradient.hs := hs; Gradient.he := he;
               Gradient.ss := ss; Gradient.se := se;
               Gradient.vs := vs; Gradient.ve := ve;
               Gradient.colorname := Gradient.colorname Gradient.defaults |})
      end.

End Dialog.

(** ** Vocabulary of the statements *)

Module Spec.
Import Py Monad Host Dialog.

(** A fresh dialog, nothing issued to the host. *)
Definition start : state :=
  {| dlg := init; tr := []; colorlist := []; residuelist := [] |}.

(** The user drags the three sliders to [r], [g], [b]. *)
Definition drag (r g b : Z) : M state unit :=
  setValue Red r ;;; setValue Green g ;;; setValue Blue b.

(** The positions of the three sliders. *)
Definition sliders (st : state) : rgb_int :=
  (sl_value (slider (scale_red (dlg st))),
   sl_value (slider (scale_green (dlg st))),
   sl_value (slider (scale_blue (dlg st)))).

(** The dialog holds the RGB color [(r, g, b)]; the user switches to HSV
    and back to RGB.  The outcome and the sliders at the end. *)
Definition switch_there_and_back (r g b : Z) : result unit * rgb_int :=
  let '(st, res) := (drag r g b ;;; Scalehsv ;;; Scalergb) start in
  (res, sliders st).

(** The sliders after the switch to HSV alone. *)
Definition switch_to_hsv (r g b : Z) : result unit * rgb_int :=
  let '(st, res) := (drag r g b ;;; Scalehsv) start in
  (res, sliders st).


(** Each channel of [a] is within [k] of that of [b]. *)
Definition within (k : Z) (a b : rgb_int) : Prop :=
  let '(a0, a1, a2) := a in
  let '(b0, b1, b2) := b in
  Z.abs (a0 - b0) <= k /\ Z.abs (a1 - b1) <= k /\ Z.abs (a2 - b2) <= k.





(** The attribute values that the predicates of histogram mode test, in
    the order of the bins. *)
Definition bin_thresholds (minimum maximum nbins : Z) : result (list float) :=
  rbind (Gradient.hist_bin_width minimum maximum nbins) (fun bin_width =>
  rbind (Gradient.hist_thresholds (minimum - 1) bin_width nbins) (fun ts =>
  Ok (fst ts :: snd ts))).






Definition with_gradient (g : string) (a : Gradient.args) : Gradient.args :=
  {| Gradient.selection := Gradient.selection a; Gradient.item := Gradient.item a;
     Gradient.mode := Gradient.mode a; Gradient.gradient := g;
     Gradient.nbins := Gradient.nbins a;
     Gradient.sat := Gradient.sat a; Gradient.value := Gradient.value a;
     Gradient.minimum := Gradient.minimum a; Gradient.maximum := Gradient.maximum a;
     Gradient.dummy := Gradient.dummy a;
     Gradient.hs := Gradient.hs a; Gradient.he := Gradient.he a;
     Gradient.ss := Gradient.ss a; Gradient.se := Gradient.se a;
     Gradient.vs := Gradient.vs a; Gradient.ve := Gradient.ve a;
     Gradient.colorname := Gradient.colorname a |}.

Definition with_mode (m : string) (a : Gradient.args) : Gradient.args :=
  {| Gradient.selection := Gradient.selection a; Gradient.item := Gradient.item a;
     Gradient.mode := m; Gradient.gradient := Gradient.gradient a;
     Gradient.nbins := Gradient.nbins a;
     Gradient.sat := Gradient.sat a; Gradient.value := Gradient.value a;
     Gradient.minimum := Gradient.minimum a; Gradient.maximum := Gradient.maximum a;
     Gradient.dummy := Gradient.dummy a;
     Gradient.hs := Gradient.hs a; Gradient.he := Gradient.he a;
     Gradient.ss := Gradient.ss a; Gradient.se := Gradient.se a;
     Gradient.vs := Gradient.vs a; Gradient.ve := Gradient.ve a;
     Gradient.colorname := Gradient.colorname a |}.

(** A host that knows one atom, residue 5, in every selection, and no
    color. *)
Definition one_atom : Host.atom :=
  {| Host.resi := "5"; Host.b := Host.ANum 20; Host.q := 1 |}.

Definition small_host : Host.t :=
  {| Host.iterate := fun _ _ _ => ([5], false);
     Host.get_object_color_index := fun _ _ => None;
     Host.get_color_tuple := fun _ _ => None;
     Host.get_model := fun _ _ => [one_atom] |}.



(** The arguments of a call [color_grad(selection, minimum=lo, maximum=hi)]. *)
Definition call (selection : string) (lo hi : Z) : Gradient.args :=
  {| Gradient.selection := selection;
     Gradient.item := Gradient.item Gradient.defaults;
     Gradient.mode := Gradient.mode Gradient.defaults;
     Gradient.gradient := Gradient.gradient Gradient.defaults;
     Gradient.nbins := Gradient.nbins Gradient.defaults;
     Gradient.sat := Gradient.sat Gradient.defaults;
     Gradient.value := Gradient.value Gradient.defaults;
     Gradient.minimum := lo;
     Gradient.maximum := hi;
     Gradient.dummy := Gradient.dummy Gradient.defaults;
     Gradient.hs := Gradient.hs Gradient.defaults;
     Gradient.he := Gradient.he Gradient.defaults;
     Gradient.ss := Gradient.ss Gradient.defaults;
     Gradient.se := Gradient.se Gradient.defaults;
     Gradient.vs := Gradient.vs Gradient.defaults;
     Gradient.ve := Gradient.ve Gradient.defaults;
     Gradient.colorname := Gradient.colorname Gradient.defaults |}.

End Spec.

(** ** Tables over the small integers *)

Module Table.







End Table.

(** * Theorems *)

Import Py Monad Host.

(** ** Ranges *)






(** ** Computations that only add events *)

Section Emits.
Variable P : event -> Prop.

(** [c] leaves the trace it was given in place and adds events that all
    satisfy [P], whatever its outcome. *)
Definition emits {A : Type} (c : M trace A) : Prop :=
  forall tr, exists new, fst (c tr) = tr ++ new /\ Forall P new.

Lemma emits_ret {A : Type} (a : A) : emits (ret a).
Proof. intros tr. exists []. now rewrite app_nil_r. Qed.

Lemma emits_raise {A : Type} (e : exn) : emits (@raise trace A e).
Proof. intros tr. exists []. now rewrite app_nil_r. Qed.

Lemma emits_lift {A : Type} (r : result A) : emits (lift r).
Proof. intros tr. exists []. now rewrite app_nil_r. Qed.

Lemma emits_get : emits get.
Proof. intros tr. exists []. now rewrite app_nil_r. Qed.

Lemma emits_emit (e : event) : P e -> emits (emit e).
Proof. intros He tr. exists [e]. split; [ reflexivity | now constructor ]. Qed.

Lemma emits_print (args : list string) :
  P (Print (String.concat " " args)) -> emits (print args).
Proof. apply emits_emit. Qed.

Lemma emits_bind {A B : Type} (c : M trace A) (k : A -> M trace B) :
  emits c -> (forall a, emits (k a)) -> emits (bind c k).
Proof.
  intros Hc Hk tr. destruct (Hc tr) as [n1 [E1 F1]].
  unfold bind. destruct (c tr) as [tr1 [a | e]]; cbn [fst] in *; subst tr1.
  - destruct (Hk a (tr ++ n1)) as [n2 [E2 F2]].
    exists (n1 ++ n2). rewrite E2, app_assoc. split; [ reflexivity | ].
    now apply Forall_app.
  - now exists n1.
Qed.

Lemma emits_index {A : Type} (l : list A) (j : Z) : emits (index l j).
Proof.
  unfold index. destruct (nth_error l (Z.to_nat j)); [ apply emits_ret | apply emits_raise ].
Qed.

Lemma emits_for_each {A : Type} (l : list A) (body : A -> M trace unit) :
  (forall x, emits (body x)) -> emits (for_each l body).
Proof.
  intros Hb. induction l as [| x l IH]; cbn [for_each].
  - apply emits_ret.
  - apply emits_bind; [ apply Hb | intros _; exact IH ].
Qed.


End Emits.


(** ** Switching the color system (C9, C1) *)

Section ColorSystem.
Import Dialog Spec.

(** C9, as the code has it: a dialog holding RGB (255,128,0), switched to
    HSV and back, ends at (255,122,0).  The HSV sliders stand at 8, 100 and
    100 hundredths in between, so red and blue come back and green comes
    back 6 lower. *)
Theorem switch_255_128_0 :
  switch_to_hsv 255 128 0 = (Ok tt, (8, 100, 100)) /\
  switch_there_and_back 255 128 0 = (Ok tt, (255, 122, 0)) /\
  within 6 (255, 122, 0) (255, 128, 0).
Proof.
  split; [ vm_compute; reflexivity | split; [ vm_compute; reflexivity | ] ].
  cbv [within]. lia.
Qed.

(** C9, as the spec states it, fails: the final triple is not within 1 of
    (255,128,0) in every channel. *)
Lemma switch_255_128_0_not_within_1 :
  ~ (exists c, switch_there_and_back 255 128 0 = (Ok tt, c) /\
               within 1 c (255, 128, 0)).
Proof.
  intros [c [Hrun Hc]].
  assert (Hv : switch_there_and_back 255 128 0 = (Ok tt, (255, 122, 0)))
    by (vm_compute; reflexivity).
  rewrite Hv in Hrun. injection Hrun as <-.
  cbv [within] in Hc. lia.
Qed.






End ColorSystem.

(** ** The bins of histogram mode on residues 1 to 10 (C3) *)

Section HistogramExample.
Import Gradient Spec.

(** C3, as the code has it.  For [minimum = 1], [maximum = 10] the bin
    count is 11 and the bin width [(11 - 0) / 11 = 1]; the thresholds are
    1, 1, 2, ..., 10: bin 0 tests [0 + 1] on the selection, bin [j > 0]
    tests [0 + j * 1] on the copy, and no bin tests 11. *)
Theorem thresholds_1_to_10 :
  effective_nbins (call "prot" 1 10) = 11 /\
  hist_bin_width 1 10 11 = Ok 1%float /\
  bin_thresholds 1 10 11 = Ok [1; 1; 2; 3; 4; 5; 6; 7; 8; 9; 10]%float /\
  hist_sel "prot" "dummy-prot" "b" 1 10 11 =
    Ok ["prot and (b =    1)"; "dummy-prot and b =    1";
        "dummy-prot and b =    2"; "dummy-prot and b =    3";
        "dummy-prot and b =    4"; "dummy-prot and b =    5";
        "dummy-prot and b =    6"; "dummy-prot and b =    7";
        "dummy-prot and b =    8"; "dummy-prot and b =    9";
        "dummy-prot and b =   10"]%string.
Proof. repeat split; vm_compute; reflexivity. Qed.

(** C3, as the spec states it, fails: the thresholds are not 1, 2, ..., 11. *)
Lemma thresholds_1_to_10_not_1_to_11 :
  bin_thresholds 1 10 11 <> Ok [1; 2; 3; 4; 5; 6; 7; 8; 9; 10; 11]%float.
Proof.
  assert (H : bin_thresholds 1 10 11 = Ok [1; 1; 2; 3; 4; 5; 6; 7; 8; 9; 10]%float)
    by (vm_compute; reflexivity).
  rewrite H. intros E.
  apply (f_equal (fun r => match r with
                           | Ok (_ :: x :: _) => Prim2SF x
                           | _ => S754_nan
                           end)) in E.
  vm_compute in E. discriminate E.
Qed.

End HistogramExample.

(** ** The gradient command *)

Section GradientCommand.
Import Gradient Spec.

(** The line that a call of [print] adds to the trace. *)
Definition printed (args : list string) : event := Print (String.concat " " args).


Lemma print_run (args : list string) (tr : trace) :
  print args tr = (tr ++ [printed args], Ok tt).
Proof. reflexivity. Qed.

Lemma emit_run (e : event) (tr : trace) : emit e tr = (tr ++ [e], Ok tt).
Proof. reflexivity. Qed.





(** *** [make_gradient] *)

Section MakeGradient.
Variables (nbins : Z) (hs he ss se vs ve : float) (colorname : string).








End MakeGradient.

(** *** The selections of histogram mode *)



(** *** The final loop *)








(** *** The block that paints *)




(** ** Rejected calls color nothing (C6) *)




(** ** The bin count in effect (C5) *)




(** ** Accepted gradients that are not implemented (C7) *)

(** C7 fails on the code: the gradient ['rgb'] passes the check of the
    gradient name, and the command then raises [UnboundLocalError] out of
    [make_gradient], after loading the copy and before any coloring. *)
Theorem gradient_rgb_raises :
  Str.mem "rgb" known_gradients = true /\
  color_grad small_host (with_gradient "rgb" (call "prot" 1 10)) [] =
  ([printed (report "hist" "rgb" 11);
    LoadModel [set_b_to_resi one_atom] "dummy-prot";
    printed ["prot"];
    printed ["Minimum and Maximum B-values: "; "1"; "10"]],
   Raise UnboundLocalError).
Proof. split; vm_compute; reflexivity. Qed.

(** The same for ['bwr'] and ['gray'], and mode ['ramp'] raises
    [IndexError] even with the gradient ['bgr']. *)
Lemma other_accepted_calls_raise :
  snd (color_grad small_host (with_gradient "bwr" (call "prot" 1 10)) [])
    = Raise UnboundLocalError /\
  snd (color_grad small_host (with_gradient "gray" (call "prot" 1 10)) [])
    = Raise UnboundLocalError /\
  snd (color_grad small_host (with_mode "ramp" (call "prot" 1 10)) [])
    = Raise IndexError.
Proof. repeat split; vm_compute; reflexivity. Qed.

(** ** Which object each bin colors (C8) *)







(** The colorings of that run: the selection gets the color of bin 0
    only. *)
Example colorings_1_to_10 :
  colorings (fst (color_grad small_host (call "prot" 1 10) [])) =
  [Color "color_prot0" "prot and (b =    1)";
   Color "color_prot1" "dummy-prot and b =    1";
   Color "color_prot2" "dummy-prot and b =    2";
   Color "color_prot3" "dummy-prot and b =    3";
   Color "color_prot4" "dummy-prot and b =    4";
   Color "color_prot5" "dummy-prot and b =    5";
   Color "color_prot6" "dummy-prot and b =    6";
   Color "color_prot7" "dummy-prot and b =    7";
   Color "color_prot8" "dummy-prot and b =    8";
   Color "color_prot9" "dummy-prot and b =    9";
   Color "color_prot10" "dummy-prot and b =   10"].
Proof. vm_compute. reflexivity. Qed.

End GradientCommand.

(** ** Activating a selection (C10) *)

Section SelectionActivation.
Import Dialog Spec.

(** [c] leaves the mode mono/gradient of the dialog as it found it,
    whatever its outcome. *)
Definition keeps_mode {A : Type} (c : M state A) : Prop :=
  forall st, monograd (dlg (fst (c st))) = monograd (dlg st).

Lemma keeps_ret {A : Type} (a : A) : keeps_mode (ret a).
Proof. intros st. reflexivity. Qed.

Lemma keeps_raise {A : Type} (e : exn) : keeps_mode (@raise state A e).
Proof. intros st. reflexivity. Qed.

Lemma keeps_lift {A : Type} (r : result A) : keeps_mode (lift r).
Proof. intros st. reflexivity. Qed.

Lemma keeps_get : keeps_mode (@get state).
Proof. intros st. reflexivity. Qed.

Lemma keeps_bind {A B : Type} (c : M state A) (k : A -> M state B) :
  keeps_mode c -> (forall a, keeps_mode (k a)) -> keeps_mode (bind c k).
Proof.
  intros Hc Hk st. unfold bind. specialize (Hc st).
  destruct (c st) as [st1 [a | e]]; cbn [fst] in *.
  - now rewrite Hk.
  - exact Hc.
Qed.

Lemma keeps_set_dlg (f : dialog -> dialog) :
  (forall d, monograd (f d) = monograd d) -> keeps_mode (set_dlg f).
Proof. intros Hf st. cbn. apply Hf. Qed.

Lemma keeps_host_do {A : Type} (c : M trace A) : keeps_mode (host_do c).
Proof. intros st. unfold host_do. now destruct (c (tr st)). Qed.

Lemma keeps_update_scale (w : which) (f : labeled_slider -> labeled_slider) :
  keeps_mode (update_scale w f).
Proof. apply keeps_set_dlg. intros d. reflexivity. Qed.

Create HintDb keeps.
#[local] Hint Resolve keeps_host_do keeps_update_scale : keeps.
#[local] Hint Extern 1 (keeps_mode (ret _)) => apply keeps_ret : keeps.
#[local] Hint Extern 1 (keeps_mode (raise _)) => apply keeps_raise : keeps.
#[local] Hint Extern 1 (keeps_mode (lift _)) => apply keeps_lift : keeps.
#[local] Hint Extern 1 (keeps_mode get) => apply keeps_get : keeps.
#[local] Hint Extern 1 (keeps_mode (set_dlg _)) =>
  apply keeps_set_dlg; intros ?; reflexivity : keeps.

(** Walk down binds, matches and conditionals; the leaves are closed by
    the lemmas of the database. *)
Ltac keeps :=
  repeat match goal with
    | |- keeps_mode (bind _ _) => apply keeps_bind; [ | intros ? ]
    | |- keeps_mode (match ?x with _ => _ end) => destruct x
    | |- keeps_mode (let '(_, _) := ?x in _) => destruct x
    | |- keeps_mode _ => solve [ auto with keeps nocore ]
    end.

Lemma keeps_get_value (w : which) : keeps_mode (get_value w).
Proof. unfold get_value, scale. keeps. Qed.
#[local] Hint Resolve keeps_get_value : keeps.

Lemma keeps_read_int (w : which) : keeps_mode (read_int w).
Proof. unfold read_int. keeps. Qed.

Lemma keeps_read_float (w : which) : keeps_mode (read_float w).
Proof. unfold read_float. keeps. Qed.
#[local] Hint Resolve keeps_read_int keeps_read_float : keeps.

Lemma keeps_slider_color_rgb : keeps_mode slider_color_rgb.
Proof. unfold slider_color_rgb. keeps. Qed.

Lemma keeps_slider_color_hsv : keeps_mode slider_color_hsv.
Proof. unfold slider_color_hsv. keeps. Qed.
#[local] Hint Resolve keeps_slider_color_rgb keeps_slider_color_hsv : keeps.

Lemma keeps_setzeFarbe : keeps_mode setzeFarbe.
Proof.
  unfold setzeFarbe, set_colorfield1, set_colorfield2, set_farbe1, set_farbe2.
  keeps.
Qed.
#[local] Hint Resolve keeps_setzeFarbe : keeps.

Lemma keeps_setValue (w : which) (v : Z) : keeps_mode (setValue w v).
Proof. unfold setValue, c_int, bounded_setValue, scale. keeps. Qed.
#[local] Hint Resolve keeps_setValue : keeps.

Lemma keeps_set_value (w : which) (v : num) : keeps_mode (set_value w v).
Proof. unfold set_value, scale. keeps. Qed.
#[local] Hint Resolve keeps_set_value : keeps.

Lemma keeps_show_farbe (pick : dialog -> rgb_int) : keeps_mode (show_farbe pick).
Proof. unfold show_farbe. keeps. Qed.
#[local] Hint Resolve keeps_show_farbe : keeps.











(** A color tuple without nan equals itself, so a selection whose first
    and last member have the same color index is mono. *)
Lemma triple_eqb_refl (a b c : float) :
  is_nan a = false -> is_nan b = false -> is_nan c = false ->
  triple_eqb (a, b, c) (a, b, c) = true.
Proof.
  unfold is_nan, triple_eqb. intros Ha Hb Hc.
  apply negb_false_iff in Ha, Hb, Hc. now rewrite Ha, Hb, Hc.
Qed.

End SelectionActivation.

(** ** Binary64 facts behind the first bin *)

Section FloatFacts.















End FloatFacts.

(** ** The colors of a gradient (C2) *)

Section GradientColors.
Import Gradient Spec.








End GradientColors.

(** ** The predicates of histogram mode (C4) *)

Section HistogramBins.
Import Gradient Spec Table.




























End HistogramBins.
